(** * HeatingFaceplate: a shallow embedding of [create_faceplate] (FacePlate.py)

    The FreeCAD macro computes a sequence of solid-modelling calls from a set
    of module-level millimetre constants.  The constants are Python floats, so
    they are modelled as IEEE binary64 values (Rocq's primitive [float]), with
    the same rounding as CPython.  The CAD kernel is not re-implemented: the
    solids are kept as the terms the script builds ([Part.makeBox],
    [makeCylinder], [makeCone], [makeFillet], [cut], [fuse]), and the only
    kernel call that can fail in the script's own error handling,
    [makeFillet], is an oracle. *)

From Stdlib Require Import Floats Uint63 ZArith Ascii String List Bool Lia.
Import ListNotations.

Local Set Warnings "-inexact-float".

Open Scope float_scope.

(** ** Python numbers *)

(** [float(z)] for a Python int of moderate size. *)
Definition float_of_Z (z : Z) : float :=
  if (z <? 0)%Z then - PrimFloat.of_uint63 (Uint63.of_Z (- z))
  else PrimFloat.of_uint63 (Uint63.of_Z z).

(** [range(n)] *)
Definition range (n : Z) : list Z :=
  map Z.of_nat (seq 0 (Z.to_nat n)).

(** ** FreeCAD vectors, edges and solids *)

Record Vector := mkVector { vx : float; vy : float; vz : float }.

(** [Vector.__add__] *)
Definition vadd (a b : Vector) : Vector :=
  mkVector (vx a + vx b) (vy a + vy b) (vz a + vz b).

(** An edge of a solid, given by its two end vertices. *)
Definition edge : Type := (Vector * Vector)%type.

(** The solids of the script, as the terms the [Part] calls build.
    [NullShape] is [Part.Shape()]. *)
Inductive shape : Type :=
| NullShape
| Box (length width height : float) (pnt : Vector)
| Cylinder (radius height : float) (pnt dir : Vector)
| Cone (radius1 radius2 height : float) (pnt dir : Vector)
| Fillet (radius : float) (edges : list edge) (s : shape)
| Cut (s t : shape)
| Fuse (s t : shape).

Definition Z_dir : Vector := mkVector 0.0 0.0 1.0.

(** [Part.makeBox(l, w, h, pnt)] (default direction +Z). *)
Definition makeBox (l w h : float) (pnt : Vector) : shape := Box l w h pnt.
Definition makeCylinder (r h : float) (pnt dir : Vector) : shape :=
  Cylinder r h pnt dir.
Definition makeCone (r1 r2 h : float) (pnt dir : Vector) : shape :=
  Cone r1 r2 h pnt dir.

(** [Shape.isNull()] *)
Definition isNull (s : shape) : bool :=
  match s with NullShape => true | _ => false end.

(** The twelve edges of a box: four parallel to Z, four to Y, four to X.
    The script reads [.Edges] of boxes only; the other solids' edges are
    never queried, and are given as empty here. *)
Definition Edges (s : shape) : list edge :=
  match s with
  | Box l w h o =>
      let x0 := vx o in let x1 := vx o + l in
      let y0 := vy o in let y1 := vy o + w in
      let z0 := vz o in let z1 := vz o + h in
      let v x y z := mkVector x y z in
      [ (v x0 y0 z0, v x0 y0 z1); (v x1 y0 z0, v x1 y0 z1);
        (v x0 y1 z0, v x0 y1 z1); (v x1 y1 z0, v x1 y1 z1);
        (v x0 y0 z0, v x0 y1 z0); (v x1 y0 z0, v x1 y1 z0);
        (v x0 y0 z1, v x0 y1 z1); (v x1 y0 z1, v x1 y1 z1);
        (v x0 y0 z0, v x1 y0 z0); (v x0 y1 z0, v x1 y1 z0);
        (v x0 y0 z1, v x1 y0 z1); (v x0 y1 z1, v x1 y1 z1) ]
  | _ => []
  end.

(** The edge test of the fillet blocks:
    [edge.Vertexes[0].X == edge.Vertexes[1].X and
     edge.Vertexes[0].Y == edge.Vertexes[1].Y] *)
Definition parallel_to_Z (e : edge) : bool :=
  (vx (fst e) =? vx (snd e)) && (vy (fst e) =? vy (snd e)).

(** ** Module-level parameters (lines 27-74) *)

Record params := mkParams {
  FACEPLATE_WIDTH : float;
  FACEPLATE_HEIGHT : float;
  FACEPLATE_THICKNESS : float;
  SCREW_SPACING : float;
  SCREW_DIAMETER : float;
  SCREW_COUNTERSINK_DIAMETER : float;
  SCREW_COUNTERSINK_DEPTH : float;
  BILRESA_LENGTH : float;
  BILRESA_WIDTH : float;
  BILRESA_THICKNESS : float;
  BILRESA_CORNER_RADIUS : float;
  NUM_BILRESA : Z;
  BILRESA_SPACING : float;
  LED_HOLE_DIAMETER : float;
  LED_HEAD_DIAMETER : float;
  LED_COUNTERSINK_DEPTH : float;
  BILRESA_FRONT_WALL : float;
  BILRESA_POCKET_DEPTH : float;
  BILRESA_CLEARANCE : float;
  SHELLY_WIDTH : float;
  SHELLY_HEIGHT : float;
  SHELLY_DEPTH : float;
  SHELLY_WALL_THICKNESS : float;
  SHELLY_LIP_HEIGHT : float;
  SHELLY_LIP_DEPTH : float;
  SHELLY_CLEARANCE : float;
  SHELLY_SHELF_THICKNESS : float }.

Definition defaults : params := {|
  FACEPLATE_WIDTH := 146.0;
  FACEPLATE_HEIGHT := 86.0;
  FACEPLATE_THICKNESS := 4.0;
  SCREW_SPACING := 120.0;
  SCREW_DIAMETER := 4.0;
  SCREW_COUNTERSINK_DIAMETER := 8.0;
  SCREW_COUNTERSINK_DEPTH := 2.0;
  BILRESA_LENGTH := 47.0;
  BILRESA_WIDTH := 16.6;
  BILRESA_THICKNESS := 0.5;
  BILRESA_CORNER_RADIUS := 8.3;
  NUM_BILRESA := 3%Z;
  BILRESA_SPACING := 40.0;
  LED_HOLE_DIAMETER := 10.75;
  LED_HEAD_DIAMETER := 11.6;
  LED_COUNTERSINK_DEPTH := 1.0;
  BILRESA_FRONT_WALL := 1.0;
  BILRESA_POCKET_DEPTH := 0.7;
  BILRESA_CLEARANCE := 0.2;
  SHELLY_WIDTH := 35.0;
  SHELLY_HEIGHT := 29.0;
  SHELLY_DEPTH := 16.0;
  SHELLY_WALL_THICKNESS := 2.0;
  SHELLY_LIP_HEIGHT := 2.0;
  SHELLY_LIP_DEPTH := 1.5;
  SHELLY_CLEARANCE := -0.75;
  SHELLY_SHELF_THICKNESS := 2.0 |}.

(** ** Geometry computed by [create_faceplate] *)

Section Geometry.

Variable p : params.

(** Base faceplate, lines 90-95. *)
Definition base_box : shape :=
  makeBox (FACEPLATE_WIDTH p) (FACEPLATE_HEIGHT p) (FACEPLATE_THICKNESS p)
    (mkVector (- FACEPLATE_WIDTH p / 2.0) (- FACEPLATE_HEIGHT p / 2.0) 0.0).

(** Screw holes, lines 102-127. *)
Definition screw_positions : list Vector :=
  [ mkVector (- SCREW_SPACING p / 2.0) 0.0 0.0;
    mkVector (SCREW_SPACING p / 2.0) 0.0 0.0 ].

Definition screw_hole (pos : Vector) : shape :=
  makeCylinder (SCREW_DIAMETER p / 2.0) (FACEPLATE_THICKNESS p + 1.0)
    (vadd pos (mkVector 0.0 0.0 (-0.5))) Z_dir.

Definition countersink (pos : Vector) : shape :=
  makeCone (SCREW_DIAMETER p / 2.0) (SCREW_COUNTERSINK_DIAMETER p / 2.0)
    (SCREW_COUNTERSINK_DEPTH p)
    (vadd pos (mkVector 0.0 0.0 (FACEPLATE_THICKNESS p - SCREW_COUNTERSINK_DEPTH p)))
    Z_dir.

Definition cut_screws (faceplate : shape) : shape :=
  fold_left (fun fp pos => Cut (Cut fp (screw_hole pos)) (countersink pos))
    screw_positions faceplate.

(** BILRESA pocket layout, lines 135-154. *)
Definition bilresa_y_pos : float := -12.0.

Definition total_span : float :=
  BILRESA_SPACING p * float_of_Z (NUM_BILRESA p - 1).

Definition start_x : float := - total_span / 2.0.

Definition bilresa_x (i : Z) : float :=
  start_x + float_of_Z i * BILRESA_SPACING p.

Definition bilresa_positions : list Vector :=
  map (fun i => mkVector (bilresa_x i) bilresa_y_pos 0.0) (range (NUM_BILRESA p)).

Definition pocket_width : float := BILRESA_WIDTH p + BILRESA_CLEARANCE p.
Definition pocket_length : float := BILRESA_LENGTH p + BILRESA_CLEARANCE p.
Definition pocket_corner_radius : float :=
  BILRESA_CORNER_RADIUS p + BILRESA_CLEARANCE p / 2.0.
Definition pocket_z_depth : float :=
  FACEPLATE_THICKNESS p - BILRESA_FRONT_WALL p.

(** Lines 159-164. *)
Definition pocket_box (pos : Vector) : shape :=
  makeBox pocket_width pocket_length pocket_z_depth
    (mkVector (vx pos - pocket_width / 2.0) (vy pos - pocket_length / 2.0) 0.0).

(** The radius handed to [makeFillet] at line 177. *)
Definition pocket_fillet_radius : float := pocket_corner_radius - 0.1.

(** LED holes, lines 188-209. *)
Definition led_y_pos : float := 30.0.

Definition led_pos (pos : Vector) : Vector := mkVector (vx pos) led_y_pos 0.0.

Definition led_hole (pos : Vector) : shape :=
  makeCylinder (LED_HOLE_DIAMETER p / 2.0) (FACEPLATE_THICKNESS p + 1.0)
    (vadd (led_pos pos) (mkVector 0.0 0.0 (-0.5))) Z_dir.

Definition led_recess (pos : Vector) : shape :=
  makeCylinder (LED_HEAD_DIAMETER p / 2.0) (LED_COUNTERSINK_DEPTH p + 0.1)
    (vadd (led_pos pos)
       (mkVector 0.0 0.0 (FACEPLATE_THICKNESS p - LED_COUNTERSINK_DEPTH p)))
    Z_dir.

Definition cut_leds (positions : list Vector) (faceplate : shape) : shape :=
  fold_left (fun fp pos => Cut (Cut fp (led_hole pos)) (led_recess pos))
    positions faceplate.

(** Shelly cradles, lines 218-329. *)
Definition cradle_internal_width : float := SHELLY_WIDTH p + SHELLY_CLEARANCE p.
Definition cradle_internal_height : float := SHELLY_HEIGHT p + SHELLY_CLEARANCE p.
Definition cradle_external_width : float :=
  cradle_internal_width + 2.0 * SHELLY_WALL_THICKNESS p.
Definition cradle_external_height : float :=
  cradle_internal_height + SHELLY_SHELF_THICKNESS p.
Definition cradle_depth : float := SHELLY_DEPTH p + SHELLY_SHELF_THICKNESS p.

Definition shelly_y_pos : float :=
  - FACEPLATE_HEIGHT p / 2.0 + cradle_external_height / 2.0 + 6.0.

Definition z_back : float := - cradle_depth.

Definition cradle_y0 : float :=
  shelly_y_pos - cradle_external_height / 2.0 + SHELLY_SHELF_THICKNESS p.

Definition shelf (shelly_x : float) : shape :=
  makeBox cradle_external_width (SHELLY_SHELF_THICKNESS p) cradle_depth
    (mkVector (shelly_x - cradle_external_width / 2.0)
       (shelly_y_pos - cradle_external_height / 2.0) z_back).

Definition shelf_lip (shelly_x : float) : shape :=
  makeBox cradle_internal_width (SHELLY_LIP_DEPTH p) (SHELLY_LIP_HEIGHT p)
    (mkVector (shelly_x - cradle_internal_width / 2.0) cradle_y0 z_back).

Definition left_guide (shelly_x : float) : shape :=
  makeBox (SHELLY_WALL_THICKNESS p) cradle_internal_height cradle_depth
    (mkVector (shelly_x - cradle_external_width / 2.0) cradle_y0 z_back).

Definition left_lip (shelly_x : float) : shape :=
  makeBox (SHELLY_LIP_DEPTH p) cradle_internal_height (SHELLY_LIP_HEIGHT p)
    (mkVector (shelly_x - cradle_external_width / 2.0 + SHELLY_WALL_THICKNESS p)
       cradle_y0 z_back).

Definition right_guide (shelly_x : float) : shape :=
  makeBox (SHELLY_WALL_THICKNESS p) cradle_internal_height cradle_depth
    (mkVector (shelly_x + cradle_external_width / 2.0 - SHELLY_WALL_THICKNESS p)
       cradle_y0 z_back).

Definition right_lip (shelly_x : float) : shape :=
  makeBox (SHELLY_LIP_DEPTH p) cradle_internal_height (SHELLY_LIP_HEIGHT p)
    (mkVector (shelly_x + cradle_external_width / 2.0 - SHELLY_WALL_THICKNESS p
                 - SHELLY_LIP_DEPTH p)
       cradle_y0 z_back).

(** Lines 316-320. *)
Definition cradle (shelly_x : float) : shape :=
  Fuse (Fuse (Fuse (Fuse (Fuse (shelf shelly_x) (shelf_lip shelly_x))
    (left_guide shelly_x)) (left_lip shelly_x)) (right_guide shelly_x))
    (right_lip shelly_x).

(** Lines 233-326. *)
Definition shelly_housings (positions : list Vector) : shape :=
  fold_left (fun acc pos =>
      let c := cradle (vx pos) in
      if isNull acc then c else Fuse acc c)
    positions NullShape.

(** Reference solids, lines 343-354 and 381-390. *)
Definition plate_z : float := pocket_z_depth - BILRESA_THICKNESS p.

Definition plate_box (pos : Vector) : shape :=
  makeBox (BILRESA_WIDTH p) (BILRESA_LENGTH p) (BILRESA_THICKNESS p)
    (mkVector (vx pos - BILRESA_WIDTH p / 2.0) (vy pos - BILRESA_LENGTH p / 2.0)
       plate_z).

Definition plate_fillet_radius : float := BILRESA_CORNER_RADIUS p - 0.1.

Definition shelly_box (pos : Vector) : shape :=
  makeBox (SHELLY_WIDTH p) (SHELLY_HEIGHT p) (SHELLY_DEPTH p)
    (mkVector (vx pos - SHELLY_WIDTH p / 2.0)
       (shelly_y_pos - cradle_external_height / 2.0 + SHELLY_SHELF_THICKNESS p
          + SHELLY_CLEARANCE p / 2.0)
       (- cradle_depth + SHELLY_SHELF_THICKNESS p)).

End Geometry.

(** ** The FreeCAD document and console *)

(** A [Part::Feature] document object with the view attributes the script
    sets.  A new object's shape is the null shape. *)
Record DocObject := mkDocObject {
  o_type : string;
  o_name : string;
  o_shape : shape;
  o_transparency : option Z;
  o_color : option (float * float * float) }.

(** A piece of an f-string: literal text, an interpolated float or int. *)
Inductive piece : Type :=
| PStr (s : string)
| PFlt (f : float)
| PInt (z : Z).

Definition line : Type := list piece.

(** The active document's objects (in creation order; an object is
    addressed by its position) and the console output. *)
Record st := mkSt { objects : list DocObject; console : list line }.

(** Exceptions the script can meet. *)
Inductive exn : Type :=
| FilletFailure        (* OCC failure inside [makeFillet] *)
| NoViewObject         (* [ViewObject] is [None] without a GUI *)
| NoActiveView.        (* [FreeCADGui.ActiveDocument.ActiveView] unusable *)

Inductive result (A : Type) : Type :=
| Ok (a : A)
| Exc (e : exn).
Arguments Ok {A} a.
Arguments Exc {A} e.

Definition M (A : Type) : Type := st -> result A * st.

Definition ret {A} (a : A) : M A := fun s => (Ok a, s).

Definition bind {A B} (m : M A) (f : A -> M B) : M B :=
  fun s => match m s with
           | (Ok a, s') => f a s'
           | (Exc e, s') => (Exc e, s')
           end.

Definition raise {A} (e : exn) : M A := fun s => (Exc e, s).

(** [try: m except: h] (a bare [except] catches every exception). *)
Definition try_except {A} (m : M A) (h : exn -> M A) : M A :=
  fun s => match m s with
           | (Exc e, s') => h e s'
           | r => r
           end.

Notation "x <- m ;; k" := (bind m (fun x => k))
  (at level 61, m at next level, right associativity).
Notation "m ;; k" := (bind m (fun _ => k))
  (at level 61, right associativity).

(** [for x in xs: body] *)
Fixpoint for_each {A} (xs : list A) (body : A -> M unit) : M unit :=
  match xs with
  | [] => ret tt
  | x :: xs' => body x ;; for_each xs' body
  end.

(** [for x in xs: acc = body(acc, x)] *)
Fixpoint fold_m {A B} (body : B -> A -> M B) (xs : list A) (acc : B) : M B :=
  match xs with
  | [] => ret acc
  | x :: xs' => acc' <- body acc x ;; fold_m body xs' acc'
  end.

Fixpoint update_nth {A} (n : nat) (f : A -> A) (l : list A) : list A :=
  match l, n with
  | [], _ => []
  | x :: l', O => f x :: l'
  | x :: l', S n' => x :: update_nth n' f l'
  end.

(** [FreeCAD.newDocument(name)]: the new document becomes the active one. *)
Definition newDocument : M unit :=
  fun s => (Ok tt, mkSt [] (console s)).

(** [doc.addObject(type, name)] returns a handle on the new object. *)
Definition addObject (ty name : string) : M nat :=
  fun s => (Ok (length (objects s)),
            mkSt (app (objects s) [mkDocObject ty name NullShape None None])
                 (console s)).

Definition modify_object (h : nat) (f : DocObject -> DocObject) : M unit :=
  fun s => (Ok tt, mkSt (update_nth h f (objects s)) (console s)).

(** [obj.Shape = sh] *)
Definition setShape (h : nat) (sh : shape) : M unit :=
  modify_object h (fun o =>
    mkDocObject (o_type o) (o_name o) sh (o_transparency o) (o_color o)).

(** [print(...)] *)
Definition print (l : line) : M unit :=
  fun s => (Ok tt, mkSt (objects s) (app (console s) [l])).

(** [doc.recompute()]: [Part::Feature] objects carry their shape as data,
    so recomputing them leaves every shape as it is. *)
Definition recompute : M unit := ret tt.

Section Run.

(** The kernel's verdict on [shape.makeFillet(radius, edges)]: [true] when
    it raises. *)
Variable fillet_fails : float -> list edge -> shape -> bool.
(** Whether document objects have a [ViewObject] (GUI session). *)
Variable has_gui : bool.
(** Whether [FreeCADGui.ActiveDocument.ActiveView] calls succeed. *)
Variable view_ok : bool.

(** [shape.makeFillet(radius, edges)] *)
Definition makeFillet (s : shape) (radius : float) (es : list edge) : M shape :=
  if fillet_fails radius es s then raise FilletFailure
  else ret (Fillet radius es s).

(** The fillet block of lines 168-181 and 357-369: select the edges parallel
    to Z, try the fillet, fall back to the box. *)
Definition fillet_or_box (box : shape) (radius : float) : M shape :=
  let edges_to_fillet := filter parallel_to_Z (Edges box) in
  match edges_to_fillet with
  | [] => ret box
  | _ :: _ =>
      try_except (makeFillet box radius edges_to_fillet) (fun _ => ret box)
  end.

(** [obj.ViewObject.Transparency = t] *)
Definition setTransparency (h : nat) (t : Z) : M unit :=
  if has_gui then
    modify_object h (fun o =>
      mkDocObject (o_type o) (o_name o) (o_shape o) (Some t) (o_color o))
  else raise NoViewObject.

(** [obj.ViewObject.ShapeColor = c] *)
Definition setShapeColor (h : nat) (c : float * float * float) : M unit :=
  if has_gui then
    modify_object h (fun o =>
      mkDocObject (o_type o) (o_name o) (o_shape o) (o_transparency o) (Some c))
  else raise NoViewObject.


(** [str(n)] for a natural number. *)
Fixpoint digits (fuel n : nat) (acc : string) : string :=
  match fuel with
  | O => acc
  | S fuel' =>
      let acc' := String (ascii_of_nat (48 + n mod 10)) acc in
      if Nat.ltb n 10 then acc' else digits fuel' (n / 10) acc'
  end.

Definition string_of_nat (n : nat) : string := digits (S n) n EmptyString.

(** [s * n] on strings *)
Fixpoint repeat_str (n : nat) (s : string) : string :=
  match n with
  | O => EmptyString
  | S n' => String.append s (repeat_str n' s)
  end.

(** [enumerate(xs)] *)
Definition enumerate {A} (xs : list A) : list (nat * A) :=
  combine (seq 0 (length xs)) xs.

Definition rule : line := [PStr (repeat_str 60 "=")].

(** The summary printed at lines 407-420. *)
Definition summary_lines (p : params) : list line :=
  [ rule;
    [PStr "Heating Control Faceplate V6 created!"];
    rule;
    [PStr "Faceplate size: "; PFlt (FACEPLATE_WIDTH p); PStr " x ";
     PFlt (FACEPLATE_HEIGHT p); PStr " x "; PFlt (FACEPLATE_THICKNESS p);
     PStr " mm"];
    [PStr "Screw spacing: "; PFlt (SCREW_SPACING p); PStr " mm (centred)"];
    [PStr "BILRESA pockets: "; PInt (NUM_BILRESA p); PStr "x VERTICAL (";
     PFlt (BILRESA_LENGTH p); PStr "mm x "; PFlt (BILRESA_WIDTH p); PStr "mm)"];
    [PStr "  -> Back-accessible: "; PFlt (pocket_z_depth p); PStr "mm deep, ";
     PFlt (BILRESA_FRONT_WALL p); PStr "mm front wall"];
    [PStr "  -> Slide plates in from back after printing"];
    [PStr "  -> Position: Y="; PFlt bilresa_y_pos; PStr "mm"];
    [PStr "LED holes: "; PInt (NUM_BILRESA p); PStr "x (";
     PFlt (LED_HOLE_DIAMETER p); PStr "mm)"];
    [PStr "Shelly housings: "; PInt (NUM_BILRESA p);
     PStr "x cradles on back (tighter fit)"];
    [PStr "  -> Shelly size: "; PFlt (SHELLY_WIDTH p); PStr " x ";
     PFlt (SHELLY_HEIGHT p); PStr " x "; PFlt (SHELLY_DEPTH p); PStr " mm"];
    [PStr "  -> Cradle depth: "; PFlt (cradle_depth p);
     PStr " mm from back surface"];
    rule ]%string.

(** [viewIsometric(); fitAll()] *)
Definition set_active_view : M unit :=
  if view_ok then ret tt else raise NoActiveView.

Variable p : params.

(** The pocket loop, lines 156-183. *)
Definition cut_pockets (positions : list Vector) (faceplate : shape) : M shape :=
  fold_m (fun fp pos =>
      pocket <- fillet_or_box (pocket_box p pos) (pocket_fillet_radius p) ;;
      ret (Cut fp pocket))
    positions faceplate.

(** Lines 90-329: the manufactured solid. *)
Definition build_faceplate : M shape :=
  let faceplate := cut_screws p (base_box p) in
  let positions := bilresa_positions p in
  faceplate <- cut_pockets positions faceplate ;;
  let faceplate := cut_leds p positions faceplate in
  ret (Fuse faceplate (shelly_housings p positions)).

(** Lines 341-373. *)
Definition add_reference_plates : M unit :=
  for_each (enumerate (bilresa_positions p)) (fun ip =>
    let '(i, pos) := ip in
    plate <- fillet_or_box (plate_box p pos) (plate_fillet_radius p) ;;
    h <- addObject "Part::Feature" (String.append "BILRESA_Plate_" (string_of_nat (i + 1))) ;;
    setShape h plate ;;
    setTransparency h 50%Z).

(** Lines 378-395. *)
Definition add_reference_shellys : M unit :=
  for_each (enumerate (bilresa_positions p)) (fun ip =>
    let '(i, pos) := ip in
    h <- addObject "Part::Feature" (String.append "Shelly_" (string_of_nat (i + 1))) ;;
    setShape h (shelly_box p pos) ;;
    setTransparency h 70%Z ;;
    setShapeColor h (0.2, 0.4, 0.8)).

(** Everything after [faceplate_obj.Shape = faceplate] (lines 341-422). *)
Definition after_faceplate_object : M unit :=
  add_reference_plates ;;
  add_reference_shellys ;;
  recompute ;;
  try_except set_active_view (fun _ => ret tt) ;;
  for_each (summary_lines p) print.

(** [create_faceplate()]; the document it returns is the final state. *)
Definition create_faceplate : M unit :=
  newDocument ;;
  faceplate <- build_faceplate ;;
  faceplate_obj <- addObject "Part::Feature" "HeatingFaceplate" ;;
  setShape faceplate_obj faceplate ;;
  after_faceplate_object.

End Run.

Definition initial_state : st := mkSt [] [].

(** ** Frame lemmas for the monadic phases *)

(** [m] always returns normally and leaves the state alone. *)
Definition pure_ok {A} (m : M A) : Prop :=
  forall s, exists a, m s = (Ok a, s).

(** [m] always returns normally and prints nothing. *)
Definition quiet_ok {A} (m : M A) : Prop :=
  forall s, exists a objs, m s = (Ok a, mkSt objs (console s)).

(** [m] never touches the document objects in [pre]. *)
Definition keeps {A} (pre : list DocObject) (m : M A) : Prop :=
  forall s r, objects s = app pre r ->
    exists r', objects (snd (m s)) = app pre r'.

Lemma pure_ok_quiet_ok {A} (m : M A) : pure_ok m -> quiet_ok m.
Proof.
  intros H s. destruct (H s) as [a Ha]. exists a, (objects s).
  rewrite Ha. destruct s; reflexivity.
Qed.

Lemma pure_ok_bind {A B} (m : M A) (f : A -> M B) :
  pure_ok m -> (forall a, pure_ok (f a)) -> pure_ok (bind m f).
Proof.
  intros Hm Hf s. destruct (Hm s) as [a Ha]. unfold bind. rewrite Ha. apply Hf.
Qed.

Lemma quiet_ok_bind {A B} (m : M A) (f : A -> M B) :
  quiet_ok m -> (forall a, quiet_ok (f a)) -> quiet_ok (bind m f).
Proof.
  intros Hm Hf s. destruct (Hm s) as [a [objs Ha]]. unfold bind. rewrite Ha.
  destruct (Hf a (mkSt objs (console s))) as [b [objs' Hb]].
  exists b, objs'. exact Hb.
Qed.

Lemma quiet_ok_ret {A} (a : A) : quiet_ok (ret a).
Proof. apply pure_ok_quiet_ok. intros s. exists a. reflexivity. Qed.

Lemma quiet_ok_for_each {A} (xs : list A) (body : A -> M unit) :
  (forall x, quiet_ok (body x)) -> quiet_ok (for_each xs body).
Proof.
  intros Hb. induction xs as [|x xs IH]; simpl.
  - apply quiet_ok_ret.
  - apply quiet_ok_bind; [apply Hb | intros; exact IH].
Qed.

Lemma keeps_bind {A B} pre (m : M A) (f : A -> M B) :
  keeps pre m -> (forall a, keeps pre (f a)) -> keeps pre (bind m f).
Proof.
  intros Hm Hf s r Hs. unfold bind.
  destruct (m s) as [[a|e] s'] eqn:E.
  - destruct (Hm s r Hs) as [r' Hr']. rewrite E in Hr'. simpl in Hr'.
    exact (Hf a s' r' Hr').
  - destruct (Hm s r Hs) as [r' Hr']. rewrite E in Hr'. exists r'. exact Hr'.
Qed.

Lemma keeps_of_pure_ok {A} pre (m : M A) : pure_ok m -> keeps pre m.
Proof.
  intros H s r Hs. destruct (H s) as [a Ha]. rewrite Ha. exists r. exact Hs.
Qed.

Lemma keeps_raise {A} pre (e : exn) : keeps pre (@raise A e).
Proof. intros s r Hs. exists r. exact Hs. Qed.

Lemma keeps_try_except {A} pre (m : M A) (h : exn -> M A) :
  keeps pre m -> (forall e, keeps pre (h e)) -> keeps pre (try_except m h).
Proof.
  intros Hm Hh s r Hs. unfold try_except.
  destruct (m s) as [[a|e] s'] eqn:E;
    destruct (Hm s r Hs) as [r' Hr']; rewrite E in Hr'; simpl in Hr'.
  - exists r'. exact Hr'.
  - exact (Hh e s' r' Hr').
Qed.

Lemma keeps_for_each {A} pre (xs : list A) (body : A -> M unit) :
  (forall x, keeps pre (body x)) -> keeps pre (for_each xs body).
Proof.
  intros Hb. induction xs as [|x xs IH]; simpl.
  - apply keeps_of_pure_ok. intros s. exists tt. reflexivity.
  - apply keeps_bind; [apply Hb | intros; exact IH].
Qed.

Lemma update_nth_app {A} (l r : list A) k f :
  update_nth (length l + k) f (app l r) = app l (update_nth k f r).
Proof.
  induction l as [|x l IH]; simpl; [reflexivity | now rewrite IH].
Qed.

Lemma keeps_modify_object pre h f :
  (length pre <= h)%nat -> keeps pre (modify_object h f).
Proof.
  intros Hh s r Hs. simpl. rewrite Hs.
  replace h with (length pre + (h - length pre))%nat by lia.
  rewrite update_nth_app. eexists. reflexivity.
Qed.

Lemma keeps_addObject_bind {B} pre ty name (k : nat -> M B) :
  (forall h, (length pre <= h)%nat -> keeps pre (k h)) ->
  keeps pre (h <- addObject ty name ;; k h).
Proof.
  intros Hk s r Hs. unfold bind, addObject.
  refine (Hk (length (objects s)) _ _ _ _).
  - rewrite Hs, length_app. lia.
  - simpl. rewrite Hs, <- app_assoc. reflexivity.
Qed.

Lemma print_summary_run (ls : list line) s :
  for_each ls print s = (Ok tt, mkSt (objects s) (app (console s) ls)).
Proof.
  revert s. induction ls as [|l ls IH]; intros s; simpl.
  - rewrite app_nil_r. destruct s; reflexivity.
  - unfold bind at 1. simpl. rewrite IH. simpl. rewrite <- app_assoc. reflexivity.
Qed.

Section Frames.

Variable fillet_fails : float -> list edge -> shape -> bool.
Variables has_gui view_ok : bool.
Variable p : params.

Lemma fillet_or_box_pure_ok box r : pure_ok (fillet_or_box fillet_fails box r).
Proof.
  intros s. unfold fillet_or_box.
  destruct (filter parallel_to_Z (Edges box)) as [|e es].
  - exists box. reflexivity.
  - unfold try_except, makeFillet.
    destruct (fillet_fails r (e :: es) box); eexists; reflexivity.
Qed.

Lemma cut_pockets_pure_ok positions fp :
  pure_ok (cut_pockets fillet_fails p positions fp).
Proof.
  unfold cut_pockets. revert fp.
  induction positions as [|pos ps IH]; intros fp; simpl.
  - intros s. exists fp. reflexivity.
  - apply pure_ok_bind.
    + apply pure_ok_bind; [apply fillet_or_box_pure_ok|].
      intros a s. exists (Cut fp a). reflexivity.
    + intros a. apply IH.
Qed.

Lemma build_faceplate_shape s :
  exists F, build_faceplate fillet_fails p s
            = (Ok (Fuse F (shelly_housings p (bilresa_positions p))), s).
Proof.
  unfold build_faceplate, bind.
  destruct (cut_pockets_pure_ok (bilresa_positions p)
              (cut_screws p (base_box p)) s) as [a Ha].
  rewrite Ha. eexists. reflexivity.
Qed.

Lemma after_faceplate_object_keeps pre :
  keeps pre (after_faceplate_object fillet_fails has_gui view_ok p).
Proof.
  unfold after_faceplate_object, add_reference_plates, add_reference_shellys,
    setTransparency, setShapeColor, setShape, recompute.
  apply keeps_bind; [|intros _].
  { apply keeps_for_each. intros [i pos].
    apply keeps_bind; [apply keeps_of_pure_ok, fillet_or_box_pure_ok|].
    intros plate. apply keeps_addObject_bind. intros h Hh.
    apply keeps_bind; [apply keeps_modify_object; exact Hh|]. intros _.
    destruct has_gui; [apply keeps_modify_object; exact Hh | apply keeps_raise]. }
  apply keeps_bind; [|intros _].
  { apply keeps_for_each. intros [i pos].
    apply keeps_addObject_bind. intros h Hh.
    apply keeps_bind; [apply keeps_modify_object; exact Hh|]. intros _.
    destruct has_gui.
    - apply keeps_bind; [apply keeps_modify_object; exact Hh|]. intros _.
      apply keeps_modify_object; exact Hh.
    - apply keeps_bind; [apply keeps_raise|]. intros _. apply keeps_raise. }
  apply keeps_bind; [|intros _].
  { apply keeps_of_pure_ok. intros s. exists tt. reflexivity. }
  apply keeps_bind; [|intros _].
  { apply keeps_try_except.
    - unfold set_active_view. destruct view_ok.
      + apply keeps_of_pure_ok. intros s. exists tt. reflexivity.
      + apply keeps_raise.
    - intros _. apply keeps_of_pure_ok. intros s. exists tt. reflexivity. }
  apply keeps_for_each. intros l s r Hs. exists r. exact Hs.
Qed.

End Frames.

Lemma quiet_ok_modify_object h f : quiet_ok (modify_object h f).
Proof. intros s. exists tt, (update_nth h f (objects s)). reflexivity. Qed.

Lemma quiet_ok_addObject_bind {B} ty name (k : nat -> M B) :
  (forall h, quiet_ok (k h)) -> quiet_ok (h <- addObject ty name ;; k h).
Proof.
  intros Hk s. unfold bind, addObject.
  destruct (Hk (length (objects s))
              (mkSt (app (objects s) [mkDocObject ty name NullShape None None])
                    (console s))) as [a [objs Ha]].
  exists a, objs. exact Ha.
Qed.

Section Console.

Variable fillet_fails : float -> list edge -> shape -> bool.
Variable view_ok : bool.
Variable p : params.

Definition prints (ls : list line) (m : M unit) : Prop :=
  forall s, exists objs, m s = (Ok tt, mkSt objs (app (console s) ls)).

Lemma prints_seq {A} ls (m : M A) (k : M unit) :
  quiet_ok m -> prints ls k -> prints ls (m ;; k).
Proof.
  intros Hm Hk s. destruct (Hm s) as [a [objs Ha]]. unfold bind. rewrite Ha.
  exact (Hk (mkSt objs (console s))).
Qed.

(** With a GUI, the reference phase and the view fitting always return
    normally; the only console output is the summary. *)
Lemma after_faceplate_object_console :
  prints (summary_lines p) (after_faceplate_object fillet_fails true view_ok p).
Proof.
  unfold after_faceplate_object.
  apply prints_seq.
  { apply quiet_ok_for_each. intros [i pos].
    apply quiet_ok_bind;
      [apply pure_ok_quiet_ok, fillet_or_box_pure_ok|intros plate].
    apply quiet_ok_addObject_bind. intros h.
    apply quiet_ok_bind; [apply quiet_ok_modify_object|intros _].
    apply quiet_ok_modify_object. }
  apply prints_seq.
  { apply quiet_ok_for_each. intros [i pos].
    apply quiet_ok_addObject_bind. intros h.
    apply quiet_ok_bind; [apply quiet_ok_modify_object|intros _].
    apply quiet_ok_bind; [apply quiet_ok_modify_object|intros _].
    apply quiet_ok_modify_object. }
  apply prints_seq; [apply quiet_ok_ret|].
  apply prints_seq.
  { intros s'. unfold try_except, set_active_view.
    exists tt, (objects s'). destruct view_ok, s'; reflexivity. }
  intros s. exists (objects s). apply print_summary_run.
Qed.

End Console.

(** [Box] extents: x, y and z ranges of a box solid. *)
Record extent := mkExtent {
  xmin : float; xmax : float; ymin : float; ymax : float;
  zmin : float; zmax : float }.

Definition box_extent (b : shape) : option extent :=
  match b with
  | Box l w h o => Some (mkExtent (vx o) (vx o + l) (vy o) (vy o + w)
                                  (vz o) (vz o + h))
  | _ => None
  end.

(** A box lying behind the back face [z = 0] of the faceplate. *)
Definition behind_back_face (b : shape) : bool :=
  match box_extent b with
  | Some e => (zmin e <=? zmax e) && (zmax e <=? 0.0)
  | None => false
  end.

(** The run with [BILRESA_POCKET_DEPTH] replaced. *)
Definition with_pocket_depth (p : params) (v : float) : params :=
  mkParams (FACEPLATE_WIDTH p) (FACEPLATE_HEIGHT p) (FACEPLATE_THICKNESS p)
    (SCREW_SPACING p) (SCREW_DIAMETER p) (SCREW_COUNTERSINK_DIAMETER p)
    (SCREW_COUNTERSINK_DEPTH p) (BILRESA_LENGTH p) (BILRESA_WIDTH p)
    (BILRESA_THICKNESS p) (BILRESA_CORNER_RADIUS p) (NUM_BILRESA p)
    (BILRESA_SPACING p) (LED_HOLE_DIAMETER p) (LED_HEAD_DIAMETER p)
    (LED_COUNTERSINK_DEPTH p) (BILRESA_FRONT_WALL p) v (BILRESA_CLEARANCE p)
    (SHELLY_WIDTH p) (SHELLY_HEIGHT p) (SHELLY_DEPTH p)
    (SHELLY_WALL_THICKNESS p) (SHELLY_LIP_HEIGHT p) (SHELLY_LIP_DEPTH p)
    (SHELLY_CLEARANCE p) (SHELLY_SHELF_THICKNESS p).

(** ** Claims *)

(** C1: every pocket cut by [create_faceplate] is a box that starts at the
    back face [z = 0] and is [pocket_z_depth] deep, and
    [pocket_z_depth + BILRESA_FRONT_WALL = FACEPLATE_THICKNESS], so a front
    skin of exactly [BILRESA_FRONT_WALL] remains. *)
Theorem C1_pocket_depth_plus_front_wall (pos : Vector) :
  In pos (bilresa_positions defaults) ->
  exists x y,
    pocket_box defaults pos
    = Box (pocket_width defaults) (pocket_length defaults)
          (pocket_z_depth defaults) (mkVector x y 0.0)
    /\ pocket_z_depth defaults + BILRESA_FRONT_WALL defaults
       = FACEPLATE_THICKNESS defaults
    /\ FACEPLATE_THICKNESS defaults - (0.0 + pocket_z_depth defaults)
       = BILRESA_FRONT_WALL defaults.
Proof.
  intros Hin. do 2 eexists. split; [reflexivity|]. split; vm_compute; reflexivity.
Qed.

Lemma C1_witness :
  In (mkVector 0.0 (-12.0) 0.0) (bilresa_positions defaults) /\
  exists x y,
    pocket_box defaults (mkVector 0.0 (-12.0) 0.0)
    = Box (pocket_width defaults) (pocket_length defaults)
          (pocket_z_depth defaults) (mkVector x y 0.0)
    /\ pocket_z_depth defaults + BILRESA_FRONT_WALL defaults
       = FACEPLATE_THICKNESS defaults
    /\ FACEPLATE_THICKNESS defaults - (0.0 + pocket_z_depth defaults)
       = BILRESA_FRONT_WALL defaults.
Proof.
  assert (H : In (mkVector 0.0 (-12.0) 0.0) (bilresa_positions defaults))
    by (vm_compute; auto).
  split; [exact H | apply (C1_pocket_depth_plus_front_wall _ H)].
Defined.

(** C2: the [NUM_BILRESA] pocket centres are [BILRESA_SPACING] apart along X,
    the first one is at [-BILRESA_SPACING*(NUM_BILRESA-1)/2], and the set of
    centre X coordinates is symmetric about [x = 0] (compared with Python's
    float [==], for which [0.0 == -0.0]). *)
Theorem C2_pocket_spacing_and_symmetry (i : nat) :
  (i < length (bilresa_positions defaults))%nat ->
  let xs := map vx (bilresa_positions defaults) in
  length xs = Z.to_nat (NUM_BILRESA defaults)
  /\ nth 0 xs 0.0
     = - (BILRESA_SPACING defaults * float_of_Z (NUM_BILRESA defaults - 1)) / 2.0
  /\ ((i + 1 < length xs)%nat ->
      nth (i + 1) xs 0.0 - nth i xs 0.0 = BILRESA_SPACING defaults)
  /\ (nth (length xs - 1 - i) xs 0.0 =? - nth i xs 0.0) = true.
Proof.
  intros Hi xs. assert (Hlen : length xs = 3%nat) by reflexivity.
  unfold xs in *. vm_compute in Hi.
  split; [reflexivity|]. split; [vm_compute; reflexivity|].
  destruct i as [|[|[|i]]]; [| | | lia];
    (split; [intros H; vm_compute in H; first [vm_compute; reflexivity | lia]
            | vm_compute; reflexivity]).
Qed.

Lemma C2_witness :
  (0 < length (bilresa_positions defaults))%nat /\
  let xs := map vx (bilresa_positions defaults) in
  length xs = Z.to_nat (NUM_BILRESA defaults)
  /\ nth 0 xs 0.0
     = - (BILRESA_SPACING defaults * float_of_Z (NUM_BILRESA defaults - 1)) / 2.0
  /\ ((0 + 1 < length xs)%nat ->
      nth (0 + 1) xs 0.0 - nth 0 xs 0.0 = BILRESA_SPACING defaults)
  /\ (nth (length xs - 1 - 0) xs 0.0 =? - nth 0 xs 0.0) = true.
Proof.
  assert (H : (0 < length (bilresa_positions defaults))%nat)
    by (vm_compute; lia).
  split; [exact H | exact (C2_pocket_spacing_and_symmetry 0 H)].
Defined.

(** C3: the two screw centres are at [x = -SCREW_SPACING/2] and
    [x = +SCREW_SPACING/2], [y = 0], exactly [SCREW_SPACING] apart; each
    through-cylinder has radius [SCREW_DIAMETER/2]; each countersink cone runs
    along +Z from radius [SCREW_DIAMETER/2] to [SCREW_COUNTERSINK_DIAMETER/2],
    starting at [z = FACEPLATE_THICKNESS - SCREW_COUNTERSINK_DEPTH], so its
    wide end is at the front face [z = FACEPLATE_THICKNESS]. *)
Theorem C3_screw_holes :
  let d := defaults in
  (exists a b,
     screw_positions d = [a; b]
     /\ vx a = - SCREW_SPACING d / 2.0 /\ vx b = SCREW_SPACING d / 2.0
     /\ vy a = 0.0 /\ vy b = 0.0
     /\ vx b - vx a = SCREW_SPACING d /\ vx a = - vx b)
  /\ Forall (fun pos =>
       screw_hole d pos
       = Cylinder (SCREW_DIAMETER d / 2.0) (FACEPLATE_THICKNESS d + 1.0)
                  (mkVector (vx pos) (vy pos) (-0.5)) Z_dir
       /\ exists z0,
            countersink d pos
            = Cone (SCREW_DIAMETER d / 2.0) (SCREW_COUNTERSINK_DIAMETER d / 2.0)
                   (SCREW_COUNTERSINK_DEPTH d) (mkVector (vx pos) (vy pos) z0)
                   Z_dir
            /\ z0 = FACEPLATE_THICKNESS d - SCREW_COUNTERSINK_DEPTH d
            /\ z0 + SCREW_COUNTERSINK_DEPTH d = FACEPLATE_THICKNESS d)
       (screw_positions d).
Proof.
  intros d. split.
  - do 2 eexists. split; [reflexivity|].
    repeat split; vm_compute; reflexivity.
  - repeat constructor; try (vm_compute; reflexivity);
      eexists; (split; [vm_compute; reflexivity|]);
      split; vm_compute; reflexivity.
Qed.

(** C4: the i-th LED hole is centred at the X of the i-th pocket centre and at
    the fixed [led_y_pos = 30.0], whatever the pocket's Y (and Z); it is a
    through-cylinder of radius [LED_HOLE_DIAMETER/2] plus a coaxial recess of
    radius [LED_HEAD_DIAMETER/2] starting at
    [z = FACEPLATE_THICKNESS - LED_COUNTERSINK_DEPTH] and reaching past the
    front face, i.e. cut [LED_COUNTERSINK_DEPTH] deep from the front face. *)
Theorem C4_led_holes (i : nat) (pos : Vector) :
  nth_error (bilresa_positions defaults) i = Some pos ->
  let d := defaults in
  led_hole d pos
  = Cylinder (LED_HOLE_DIAMETER d / 2.0) (FACEPLATE_THICKNESS d + 1.0)
             (mkVector (vx pos) led_y_pos (-0.5)) Z_dir
  /\ led_recess d pos
     = Cylinder (LED_HEAD_DIAMETER d / 2.0) (LED_COUNTERSINK_DEPTH d + 0.1)
                (mkVector (vx pos) led_y_pos
                   (FACEPLATE_THICKNESS d - LED_COUNTERSINK_DEPTH d)) Z_dir
  /\ led_y_pos = 30.0
  /\ FACEPLATE_THICKNESS d - (FACEPLATE_THICKNESS d - LED_COUNTERSINK_DEPTH d)
     = LED_COUNTERSINK_DEPTH d
  /\ (FACEPLATE_THICKNESS d
        <=? (FACEPLATE_THICKNESS d - LED_COUNTERSINK_DEPTH d)
            + (LED_COUNTERSINK_DEPTH d + 0.1)) = true
  /\ (forall y z,
        led_hole d (mkVector (vx pos) y z) = led_hole d pos
        /\ led_recess d (mkVector (vx pos) y z) = led_recess d pos).
Proof.
  intros Hi d.
  destruct i as [|[|[|i]]]; vm_compute in Hi;
    [| | | destruct i; discriminate];
    injection Hi as <-;
    (split; [vm_compute; reflexivity|]);
    (split; [vm_compute; reflexivity|]);
    (split; [reflexivity|]);
    (split; [vm_compute; reflexivity|]);
    (split; [vm_compute; reflexivity|]);
    intros y z; split; reflexivity.
Qed.

Lemma C4_witness :
  nth_error (bilresa_positions defaults) 2 = Some (mkVector 40.0 (-12.0) 0.0) /\
  let d := defaults in
  let pos := mkVector 40.0 (-12.0) 0.0 in
  led_hole d pos
  = Cylinder (LED_HOLE_DIAMETER d / 2.0) (FACEPLATE_THICKNESS d + 1.0)
             (mkVector (vx pos) led_y_pos (-0.5)) Z_dir
  /\ led_recess d pos
     = Cylinder (LED_HEAD_DIAMETER d / 2.0) (LED_COUNTERSINK_DEPTH d + 0.1)
                (mkVector (vx pos) led_y_pos
                   (FACEPLATE_THICKNESS d - LED_COUNTERSINK_DEPTH d)) Z_dir
  /\ led_y_pos = 30.0
  /\ FACEPLATE_THICKNESS d - (FACEPLATE_THICKNESS d - LED_COUNTERSINK_DEPTH d)
     = LED_COUNTERSINK_DEPTH d
  /\ (FACEPLATE_THICKNESS d
        <=? (FACEPLATE_THICKNESS d - LED_COUNTERSINK_DEPTH d)
            + (LED_COUNTERSINK_DEPTH d + 0.1)) = true
  /\ (forall y z,
        led_hole d (mkVector (vx pos) y z) = led_hole d pos
        /\ led_recess d (mkVector (vx pos) y z) = led_recess d pos).
Proof.
  assert (H : nth_error (bilresa_positions defaults) 2
              = Some (mkVector 40.0 (-12.0) 0.0)) by (vm_compute; reflexivity).
  split; [exact H | exact (C4_led_holes 2 _ H)].
Defined.

(** C5: each cradle is the fuse of exactly six boxes (shelf, shelf lip, left
    guide, left lip, right guide, right lip), each lying in [z <= 0]; the
    cradles of the three positions are fused with each other, and the result
    is fused onto the cut faceplate solid. *)
Theorem C5_cradles_fused_behind_back_face :
  (forall x : float,
     exists b1 b2 b3 b4 b5 b6,
       cradle defaults x = Fuse (Fuse (Fuse (Fuse (Fuse b1 b2) b3) b4) b5) b6
       /\ Forall (fun b => behind_back_face b = true) [b1; b2; b3; b4; b5; b6])
  /\ shelly_housings defaults (bilresa_positions defaults)
     = Fuse (Fuse (cradle defaults (-40.0)) (cradle defaults 0.0))
            (cradle defaults 40.0)
  /\ (forall fillet_fails s,
        exists F,
          build_faceplate fillet_fails defaults s
          = (Ok (Fuse F (shelly_housings defaults (bilresa_positions defaults))), s)).
Proof.
  split; [|split].
  - intros x. do 6 eexists. split; [reflexivity|].
    repeat constructor.
  - vm_compute. reflexivity.
  - intros fillet_fails s. apply build_faceplate_shape.
Qed.

(** C6: external cradle width = internal width [SHELLY_WIDTH +
    SHELLY_CLEARANCE] plus twice the wall, external height = internal height
    [SHELLY_HEIGHT + SHELLY_CLEARANCE] plus the shelf, with the default
    clearance [-0.75]; and every cradle built spans exactly these: from the
    outer face of its left guide to that of its right guide, and from the
    bottom of its shelf to the top of its guides. *)
Theorem C6_cradle_external_dimensions :
  let d := defaults in
  SHELLY_CLEARANCE d = -0.75
  /\ cradle_internal_width d = SHELLY_WIDTH d + SHELLY_CLEARANCE d
  /\ cradle_external_width d
     = cradle_internal_width d + 2.0 * SHELLY_WALL_THICKNESS d
  /\ cradle_internal_height d = SHELLY_HEIGHT d + SHELLY_CLEARANCE d
  /\ cradle_external_height d
     = cradle_internal_height d + SHELLY_SHELF_THICKNESS d
  /\ cradle_external_width d = 38.25
  /\ cradle_external_height d = 30.25
  /\ Forall (fun pos =>
       exists el er es,
         box_extent (left_guide d (vx pos)) = Some el
         /\ box_extent (right_guide d (vx pos)) = Some er
         /\ box_extent (shelf d (vx pos)) = Some es
         /\ xmax er - xmin el = cradle_external_width d
         /\ xmax es - xmin es = cradle_external_width d
         /\ ymax el - ymin es = cradle_external_height d
         /\ ymax er - ymin es = cradle_external_height d)
       (bilresa_positions d).
Proof.
  intros d.
  do 5 (split; [reflexivity|]).
  split; [vm_compute; reflexivity|].
  split; [vm_compute; reflexivity|].
  vm_compute.
  repeat constructor; do 3 eexists;
    (split; [reflexivity|]); (split; [reflexivity|]); (split; [reflexivity|]);
    repeat split; vm_compute; reflexivity.
Qed.


(** [create_faceplate] once the manufactured solid is built. *)
Lemma create_faceplate_run fillet_fails has_gui view_ok p s0 F :
  build_faceplate fillet_fails p (mkSt [] (console s0))
  = (Ok F, mkSt [] (console s0)) ->
  create_faceplate fillet_fails has_gui view_ok p s0
  = after_faceplate_object fillet_fails has_gui view_ok p
      (mkSt [mkDocObject "Part::Feature" "HeatingFaceplate" F None None]
            (console s0)).
Proof.
  intros H. unfold create_faceplate, bind, newDocument.
  rewrite H. reflexivity.
Qed.

(** C7: the manufactured solid [F] is computed before any reference solid,
    assigned to the [HeatingFaceplate] object, and the rest of the run (the
    BILRESA and Shelly reference objects, recompute, view fitting, summary)
    leaves that object, and so its solid, exactly as assigned; this holds for
    every parameter set and every outcome of the fillets and GUI calls. *)
Theorem C7_reference_solids_leave_faceplate :
  forall fillet_fails has_gui view_ok p s0,
  exists F,
    build_faceplate fillet_fails p (mkSt [] (console s0))
    = (Ok F, mkSt [] (console s0))
    /\ nth_error
         (objects (snd (create_faceplate fillet_fails has_gui view_ok p s0))) 0
       = Some (mkDocObject "Part::Feature" "HeatingFaceplate" F None None).
Proof.
  intros fillet_fails has_gui view_ok p s0.
  destruct (build_faceplate_shape fillet_fails p (mkSt [] (console s0)))
    as [F0 HF].
  eexists. split; [exact HF|].
  rewrite (create_faceplate_run _ _ _ _ _ _ HF).
  set (o := mkDocObject "Part::Feature" "HeatingFaceplate" _ None None).
  destruct (after_faceplate_object_keeps fillet_fails has_gui view_ok p [o]
              (mkSt [o] (console s0)) [] eq_refl) as [r Hr].
  rewrite Hr. reflexivity.
Qed.

(** C8: every fillet attempt ([fillet_or_box], used for the pockets and the
    reference plates) that raises yields the unfilleted box and changes
    neither the document nor the console; with such a kernel, the whole build
    (in a GUI session, where [ViewObject] exists) still returns normally and
    prints nothing but the final summary. *)
Theorem C8_fillet_failure_falls_back
    (fillet_fails : float -> list edge -> shape -> bool) (box : shape)
    (r : float) (s : st) :
  fillet_fails r (filter parallel_to_Z (Edges box)) box = true ->
  fillet_or_box fillet_fails box r s = (Ok box, s)
  /\ (forall view_ok p s0,
        exists objs,
          create_faceplate fillet_fails true view_ok p s0
          = (Ok tt, mkSt objs (app (console s0) (summary_lines p)))).
Proof.
  intros Hf. split.
  - unfold fillet_or_box.
    destruct (filter parallel_to_Z (Edges box)) as [|e es]; [reflexivity|].
    unfold try_except, makeFillet. rewrite Hf. reflexivity.
  - intros view_ok p s0.
    destruct (build_faceplate_shape fillet_fails p (mkSt [] (console s0)))
      as [F0 HF].
    rewrite (create_faceplate_run _ _ _ _ _ _ HF).
    exact (after_faceplate_object_console fillet_fails view_ok p _).
Qed.

Lemma C8_witness :
  let ff := fun (_ : float) (_ : list edge) (_ : shape) => true in
  let box := pocket_box defaults (mkVector 0.0 (-12.0) 0.0) in
  ff (pocket_fillet_radius defaults) (filter parallel_to_Z (Edges box)) box = true
  /\ fillet_or_box ff box (pocket_fillet_radius defaults) initial_state
     = (Ok box, initial_state)
  /\ (forall view_ok p s0,
        exists objs,
          create_faceplate ff true view_ok p s0
          = (Ok tt, mkSt objs (app (console s0) (summary_lines p)))).
Proof.
  intros ff box.
  assert (H : ff (pocket_fillet_radius defaults)
                 (filter parallel_to_Z (Edges box)) box = true) by reflexivity.
  split; [exact H | exact (C8_fillet_failure_falls_back ff box _ initial_state H)].
Defined.

(** C9: the pocket fillet radius handed to [makeFillet] is
    [pocket_corner_radius - 0.1 = 8.3], where [pocket_corner_radius] equals
    half the pocket width ([8.4]); it is strictly below half the pocket width,
    so two opposing fillets (together [16.6]) fit inside the width [16.8]. *)
Theorem C9_pocket_fillet_radius :
  let d := defaults in
  pocket_fillet_radius d = pocket_corner_radius d - 0.1
  /\ pocket_corner_radius d
     = BILRESA_CORNER_RADIUS d + BILRESA_CLEARANCE d / 2.0
  /\ pocket_corner_radius d = pocket_width d / 2.0
  /\ pocket_width d = BILRESA_WIDTH d + BILRESA_CLEARANCE d
  /\ pocket_fillet_radius d = 8.3
  /\ pocket_width d / 2.0 = 8.4
  /\ (pocket_fillet_radius d <? pocket_width d / 2.0) = true
  /\ (2.0 * pocket_fillet_radius d <? pocket_width d) = true.
Proof.
  intros d. do 2 (split; [reflexivity|]).
  repeat split; vm_compute; reflexivity.
Qed.

(** C10: [BILRESA_POCKET_DEPTH] is never read: two runs differing only in it
    are identical (every solid, document object and console line), and the
    pocket depth actually cut is [FACEPLATE_THICKNESS - BILRESA_FRONT_WALL =
    3.0], not [BILRESA_POCKET_DEPTH = 0.7]. *)
Theorem C10_pocket_depth_constant_unused :
  (forall fillet_fails has_gui view_ok p v s,
     create_faceplate fillet_fails has_gui view_ok (with_pocket_depth p v) s
     = create_faceplate fillet_fails has_gui view_ok p s)
  /\ pocket_z_depth defaults
     = FACEPLATE_THICKNESS defaults - BILRESA_FRONT_WALL defaults
  /\ pocket_z_depth defaults = 3.0
  /\ pocket_z_depth defaults <> BILRESA_POCKET_DEPTH defaults.
Proof.
  split; [|split; [reflexivity | split]].
  - intros fillet_fails has_gui view_ok [] v s. reflexivity.
  - vm_compute. reflexivity.
  - vm_compute. discriminate.
Qed.

(** ** Further properties of the script *)

(** The edge test at lines 171-172 (and 359-360) picks exactly the four
    Z-parallel edges of a box whose corner coordinates are ordinary floats
    (each equal to itself, i.e. not NaN) and whose X and Y sides survive
    rounding; so the fillet is always attempted and the [else] branch of
    lines 180-181 and 368-369 is never taken on such a box. *)
Theorem edges_to_fillet_box (l w h : float) (o : Vector) :
  (vx o =? vx o) = true -> (vx o + l =? vx o + l) = true ->
  (vy o =? vy o) = true -> (vy o + w =? vy o + w) = true ->
  (vx o =? vx o + l) = false -> (vy o =? vy o + w) = false ->
  filter parallel_to_Z (Edges (Box l w h o)) = firstn 4 (Edges (Box l w h o))
  /\ Forall (fun e => vx (fst e) = vx (snd e) /\ vy (fst e) = vy (snd e))
       (filter parallel_to_Z (Edges (Box l w h o))).
Proof.
  intros H1 H2 H3 H4 H5 H6.
  assert (E : filter parallel_to_Z (Edges (Box l w h o))
              = firstn 4 (Edges (Box l w h o))).
  { unfold Edges, parallel_to_Z. simpl.
    rewrite H1, H2, H3, H4, H5, H6. reflexivity. }
  split; [exact E|]. rewrite E. simpl. repeat constructor.
Qed.

Lemma edges_to_fillet_box_witness :
  let b := pocket_box defaults (mkVector 0.0 (-12.0) 0.0) in
  exists l w h o, b = Box l w h o /\
  filter parallel_to_Z (Edges (Box l w h o)) = firstn 4 (Edges (Box l w h o))
  /\ Forall (fun e => vx (fst e) = vx (snd e) /\ vy (fst e) = vy (snd e))
       (filter parallel_to_Z (Edges (Box l w h o))).
Proof.
  intros b. do 4 eexists. split; [reflexivity|].
  apply edges_to_fillet_box; vm_compute; reflexivity.
Defined.

Lemma modify_last (f : DocObject -> DocObject) objs o c :
  modify_object (length objs) f (mkSt (app objs [o]) c)
  = (Ok tt, mkSt (app objs [f o]) c).
Proof.
  unfold modify_object. simpl.
  replace (length objs) with (length objs + 0)%nat by lia.
  rewrite update_nth_app. reflexivity.
Qed.

Lemma fillet_or_box_result ff box r s :
  exists sh, fillet_or_box ff box r s = (Ok sh, s)
    /\ (sh = box \/ sh = Fillet r (filter parallel_to_Z (Edges box)) box).
Proof.
  unfold fillet_or_box.
  destruct (filter parallel_to_Z (Edges box)) as [|e es].
  - exists box. auto.
  - unfold try_except, makeFillet.
    destruct (ff r (e :: es) box); eexists; split; try reflexivity; auto.
Qed.

(** The reference plate object built for position [pos] at index [i]. *)
Definition is_plate_object (p : params) (o : DocObject) (ip : nat * Vector) : Prop :=
  let '(i, pos) := ip in
  o_type o = "Part::Feature"%string
  /\ o_name o = String.append "BILRESA_Plate_" (string_of_nat (i + 1))
  /\ (o_shape o = plate_box p pos
      \/ o_shape o = Fillet (plate_fillet_radius p)
                       (filter parallel_to_Z (Edges (plate_box p pos)))
                       (plate_box p pos))
  /\ o_transparency o = Some 50%Z
  /\ o_color o = None.

(** The reference Shelly object built for position [pos] at index [i]. *)
Definition shelly_object (p : params) (ip : nat * Vector) : DocObject :=
  let '(i, pos) := ip in
  mkDocObject "Part::Feature" (String.append "Shelly_" (string_of_nat (i + 1)))
    (shelly_box p pos) (Some 70%Z) (Some (0.2, 0.4, 0.8)).

Section Layout.

Variable fillet_fails : float -> list edge -> shape -> bool.
Variable has_gui : bool.
Variable p : params.

(** The loop bodies of lines 341-373 and 378-395. *)
Definition plate_body (ip : nat * Vector) : M unit :=
  let '(i, pos) := ip in
  plate <- fillet_or_box fillet_fails (plate_box p pos) (plate_fillet_radius p) ;;
  h <- addObject "Part::Feature"
         (String.append "BILRESA_Plate_" (string_of_nat (i + 1))) ;;
  setShape h plate ;;
  setTransparency has_gui h 50%Z.

Definition shelly_body (ip : nat * Vector) : M unit :=
  let '(i, pos) := ip in
  h <- addObject "Part::Feature" (String.append "Shelly_" (string_of_nat (i + 1))) ;;
  setShape h (shelly_box p pos) ;;
  setTransparency has_gui h 70%Z ;;
  setShapeColor has_gui h (0.2, 0.4, 0.8).

Lemma add_reference_plates_body :
  add_reference_plates fillet_fails has_gui p
  = for_each (enumerate (bilresa_positions p)) plate_body.
Proof. reflexivity. Qed.

Lemma add_reference_shellys_body :
  add_reference_shellys has_gui p
  = for_each (enumerate (bilresa_positions p)) shelly_body.
Proof. reflexivity. Qed.

Hypothesis gui : has_gui = true.

Lemma plate_body_gui ip s :
  exists o, plate_body ip s = (Ok tt, mkSt (app (objects s) [o]) (console s))
            /\ is_plate_object p o ip.
Proof.
  destruct ip as [i pos]. unfold plate_body.
  destruct (fillet_or_box_result fillet_fails (plate_box p pos)
              (plate_fillet_radius p) s) as [sh [Hsh Hor]].
  unfold bind at 1. rewrite Hsh.
  unfold bind at 1, addObject at 1. unfold bind at 1.
  unfold setShape. rewrite modify_last. unfold setTransparency. rewrite gui.
  rewrite modify_last. simpl.
  eexists. split; [reflexivity|]. simpl. repeat split; auto.
Qed.

Lemma shelly_body_gui ip s :
  shelly_body ip s
  = (Ok tt, mkSt (app (objects s) [shelly_object p ip]) (console s)).
Proof.
  destruct ip as [i pos]. unfold shelly_body.
  unfold bind at 1, addObject at 1. unfold bind at 1.
  unfold setShape. rewrite modify_last. unfold bind at 1, setTransparency.
  rewrite gui, modify_last. unfold setShapeColor. rewrite modify_last.
  reflexivity.
Qed.

Lemma add_plates_gui (xs : list (nat * Vector)) s :
  exists plates,
    for_each xs plate_body s
    = (Ok tt, mkSt (app (objects s) plates) (console s))
    /\ Forall2 (is_plate_object p) plates xs.
Proof.
  revert s. induction xs as [|ip xs IH]; intros s; simpl.
  - exists []. rewrite app_nil_r. destruct s; auto.
  - destruct (plate_body_gui ip s) as [o [Ho Hp]].
    unfold bind. rewrite Ho.
    destruct (IH (mkSt (app (objects s) [o]) (console s))) as [plates [Hr HF]].
    exists (o :: plates). rewrite Hr. simpl. rewrite <- app_assoc.
    split; [reflexivity | constructor; assumption].
Qed.

Lemma add_shellys_gui (xs : list (nat * Vector)) s :
  for_each xs shelly_body s
  = (Ok tt, mkSt (app (objects s) (map (shelly_object p) xs)) (console s)).
Proof.
  revert s. induction xs as [|ip xs IH]; intros s; simpl.
  - rewrite app_nil_r. destruct s; auto.
  - unfold bind. rewrite shelly_body_gui, IH. simpl.
    rewrite <- app_assoc. reflexivity.
Qed.

End Layout.

(** The message of the [except] clause of lines 430-432. *)
Definition usage_lines : list line :=
  [ [PStr "Run this script from within FreeCAD"];
    [PStr "Macro > Macros > select this file > Run"] ]%string.

(** The [__main__] block, lines 426-432: [import FreeCADGui] then
    [create_faceplate()] under a bare [except]. [import_ok] says whether the
    import succeeds; when it fails, control goes straight to the handler. *)
Definition main (import_ok : bool) fillet_fails has_gui view_ok (p : params)
  : M unit :=
  if import_ok then
    try_except (create_faceplate fillet_fails has_gui view_ok p)
      (fun _ => for_each usage_lines print)
  else for_each usage_lines print.

Lemma try_view_ok view_ok s :
  try_except (set_active_view view_ok) (fun _ => ret tt) s = (Ok tt, s).
Proof. unfold try_except, set_active_view. destruct view_ok; reflexivity. Qed.

Lemma document_gui_run fillet_fails view_ok p s0 :
  exists F plates,
    create_faceplate fillet_fails true view_ok p s0
    = (Ok tt,
       mkSt (mkDocObject "Part::Feature" "HeatingFaceplate" F None None
               :: app plates (map (shelly_object p) (enumerate (bilresa_positions p))))
            (app (console s0) (summary_lines p)))
    /\ Forall2 (is_plate_object p) plates (enumerate (bilresa_positions p))
    /\ length plates = Z.to_nat (NUM_BILRESA p).
Proof.
  destruct (build_faceplate_shape fillet_fails p (mkSt [] (console s0)))
    as [F0 HF].
  rewrite (create_faceplate_run _ _ _ _ _ _ HF).
  set (o := mkDocObject "Part::Feature" "HeatingFaceplate" _ None None).
  destruct (add_plates_gui fillet_fails true p eq_refl
              (enumerate (bilresa_positions p)) (mkSt [o] (console s0)))
    as [plates [Hpl HF2]].
  exists (Fuse F0 (shelly_housings p (bilresa_positions p))), plates.
  split; [|split; [exact HF2|]].
  - unfold after_faceplate_object. rewrite add_reference_plates_body.
    unfold bind at 1. rewrite Hpl.
    rewrite add_reference_shellys_body. unfold bind at 1.
    rewrite add_shellys_gui by reflexivity.
    unfold bind at 1. unfold recompute, ret at 1.
    unfold bind at 1. rewrite try_view_ok. rewrite print_summary_run.
    simpl objects. simpl console. try rewrite <- app_assoc. reflexivity.
  - apply Forall2_length in HF2. rewrite HF2. unfold enumerate.
    rewrite length_combine, length_seq, Nat.min_id.
    unfold bilresa_positions, range. rewrite !length_map, length_seq.
    reflexivity.
Qed.


Lemma bilresa_positions_cons p :
  (0 < NUM_BILRESA p)%Z ->
  exists pos rest, bilresa_positions p = pos :: rest.
Proof.
  intros H. unfold bilresa_positions, range.
  destruct (Z.to_nat (NUM_BILRESA p)) eqn:E; [lia|].
  simpl. do 2 eexists. reflexivity.
Qed.

(** Without a GUI ([ViewObject] is [None]) and with at least one pocket,
    [create_faceplate] raises at the first [ViewObject.Transparency]
    assignment: the document then holds the faceplate object and one plate,
    nothing is printed; [main] catches the error and prints its
    "Run this script from within FreeCAD" message. *)
Theorem no_gui_aborts_at_first_plate fillet_fails view_ok p s0 :
  (0 < NUM_BILRESA p)%Z ->
  exists objs,
    create_faceplate fillet_fails false view_ok p s0
    = (Exc NoViewObject, mkSt objs (console s0))
    /\ length objs = 2%nat
    /\ main true fillet_fails false view_ok p s0
       = (Ok tt, mkSt objs (app (console s0) usage_lines)).
Proof.
  intros HN. destruct (bilresa_positions_cons p HN) as [pos [rest Hpos]].
  destruct (build_faceplate_shape fillet_fails p (mkSt [] (console s0)))
    as [F0 HF].
  set (o := mkDocObject "Part::Feature" "HeatingFaceplate"
              (Fuse F0 (shelly_housings p (bilresa_positions p))) None None).
  destruct (fillet_or_box_result fillet_fails (plate_box p pos)
              (plate_fillet_radius p) (mkSt [o] (console s0))) as [sh [Hsh _]].
  assert (Hrun : create_faceplate fillet_fails false view_ok p s0
    = (Exc NoViewObject,
       mkSt [o; mkDocObject "Part::Feature"
                  (String.append "BILRESA_Plate_" (string_of_nat (0 + 1)))
                  sh None None] (console s0))).
  { rewrite (create_faceplate_run _ _ _ _ _ _ HF).
    unfold after_faceplate_object. rewrite add_reference_plates_body.
    replace (enumerate (bilresa_positions p)) with (enumerate (pos :: rest))
      by (rewrite Hpos; reflexivity).
    unfold enumerate. simpl for_each.
    unfold bind at 2 3. unfold plate_body at 1.
    unfold bind at 1. fold o. rewrite Hsh.
    unfold bind at 1, addObject at 1. unfold bind at 1.
    unfold setShape. rewrite (modify_last _ [o]). reflexivity. }
  eexists. split; [exact Hrun|]. split; [reflexivity|].
  unfold main, try_except. rewrite Hrun. rewrite print_summary_run.
  reflexivity.
Qed.

Lemma no_gui_aborts_at_first_plate_witness :
  (0 < NUM_BILRESA defaults)%Z /\
  exists objs,
    create_faceplate (fun _ _ _ => false) false true defaults initial_state
    = (Exc NoViewObject, mkSt objs (console initial_state))
    /\ length objs = 2%nat
    /\ main true (fun _ _ _ => false) false true defaults initial_state
       = (Ok tt, mkSt objs (app (console initial_state) usage_lines)).
Proof.
  assert (H : (0 < NUM_BILRESA defaults)%Z) by reflexivity.
  split; [exact H | exact (no_gui_aborts_at_first_plate _ true defaults _ H)].
Defined.

(** The [__main__] block never lets an exception escape.  If [import
    FreeCADGui] fails, no document object is created and only the two-line
    message is printed; in a GUI session the run completes and prints the
    summary, never the message. *)
Theorem main_outcomes import_ok fillet_fails has_gui view_ok p s0 :
  (exists s', main import_ok fillet_fails has_gui view_ok p s0 = (Ok tt, s'))
  /\ main false fillet_fails has_gui view_ok p s0
     = (Ok tt, mkSt (objects s0) (app (console s0) usage_lines))
  /\ (exists objs,
        main true fillet_fails true view_ok p s0
        = (Ok tt, mkSt objs (app (console s0) (summary_lines p)))).
Proof.
  split; [|split].
  - unfold main. destruct import_ok.
    + unfold try_except.
      destruct (create_faceplate fillet_fails has_gui view_ok p s0)
        as [[[]|e] s'] eqn:E.
      * eexists. reflexivity.
      * rewrite print_summary_run. eexists. reflexivity.
    + rewrite print_summary_run. eexists. reflexivity.
  - unfold main. apply print_summary_run.
  - destruct (document_gui_run fillet_fails view_ok p s0)
      as [F [plates [Hrun _]]].
    eexists. unfold main, try_except. rewrite Hrun. reflexivity.
Qed.

(** A failure of the view-fitting calls (lines 401-405) is swallowed: the run
    is the same as when they succeed. *)
Theorem view_fit_failure_ignored fillet_fails has_gui p s0 :
  create_faceplate fillet_fails has_gui false p s0
  = create_faceplate fillet_fails has_gui true p s0.
Proof.
  destruct (build_faceplate_shape fillet_fails p (mkSt [] (console s0)))
    as [F0 HF].
  rewrite !(create_faceplate_run _ _ _ _ _ _ HF).
  unfold after_faceplate_object.
  unfold bind at 1 5.
  destruct (add_reference_plates fillet_fails has_gui p _) as [[[]|e] s1];
    [|reflexivity].
  unfold bind at 1 4.
  destruct (add_reference_shellys has_gui p s1) as [[[]|e] s2]; [|reflexivity].
  unfold bind at 1 3. unfold recompute, ret at 1 3.
  unfold bind at 1 2. rewrite !try_view_ok. reflexivity.
Qed.

(** [shelly_housings] starts from [Part.Shape()]; since a cradle is never
    null, the [isNull] test succeeds only for the first cradle: with no
    positions the housings stay the null shape, otherwise they are the
    left-nested fuse of the cradles in order. *)
Theorem shelly_housings_fold (p : params) (pos : Vector) (rest : list Vector) :
  shelly_housings p [] = NullShape
  /\ shelly_housings p (pos :: rest)
     = fold_left (fun acc q => Fuse acc (cradle p (vx q))) rest (cradle p (vx pos)).
Proof.
  split; [reflexivity|]. unfold shelly_housings. simpl.
  assert (Hc : isNull (cradle p (vx pos)) = false) by reflexivity.
  revert Hc. generalize (cradle p (vx pos)) as acc.
  induction rest as [|q rest IH]; intros acc Hacc; simpl; [reflexivity|].
  rewrite Hacc. apply IH. reflexivity.
Qed.

(** Axis-aligned bounding box of a box, or of a cylinder or cone along +Z
    (the largest radius bounds the cone). *)
Definition is_Z_dir (d : Vector) : bool :=
  (vx d =? 0.0) && (vy d =? 0.0) && (vz d =? 1.0).

Definition round_extent (r h : float) (o : Vector) : extent :=
  mkExtent (vx o - r) (vx o + r) (vy o - r) (vy o + r) (vz o) (vz o + h).

Definition bbox (s : shape) : option extent :=
  match s with
  | Box _ _ _ _ => box_extent s
  | Cylinder r h o d => if is_Z_dir d then Some (round_extent r h o) else None
  | Cone r1 r2 h o d =>
      if is_Z_dir d then Some (round_extent (if r1 <=? r2 then r2 else r1) h o)
      else None
  | _ => None
  end.

(** [a] lies in the XY rectangle of [b]. *)
Definition inside_xy (a b : extent) : bool :=
  (xmin b <=? xmin a) && (xmax a <=? xmax b)
  && (ymin b <=? ymin a) && (ymax a <=? ymax b).

Definition inside (a b : extent) : bool :=
  inside_xy a b && (zmin b <=? zmin a) && (zmax a <=? zmax b).

(** The XY rectangles of [a] and [b] are apart. *)
Definition apart_xy (a b : extent) : bool :=
  (xmax a <? xmin b) || (xmax b <? xmin a)
  || (ymax a <? ymin b) || (ymax b <? ymin a).

Definition bbox_rel (R : extent -> extent -> bool) (a b : shape) : Prop :=
  match bbox a, bbox b with
  | Some ea, Some eb => R ea eb = true
  | _, _ => False
  end.

(** The solids cut from the blank, grouped by feature: one group per screw
    hole (hole and countersink), per pocket and per LED (hole and recess). *)
Definition cut_groups (p : params) : list (list shape) :=
  map (fun pos => [screw_hole p pos; countersink p pos]) (screw_positions p)
  ++ map (fun pos => [pocket_box p pos]) (bilresa_positions p)
  ++ map (fun pos => [led_hole p pos; led_recess p pos]) (bilresa_positions p).

Definition cradle_parts (p : params) (x : float) : list shape :=
  [shelf p x; shelf_lip p x; left_guide p x; left_lip p x;
   right_guide p x; right_lip p x].

(** Every pocket and every hole of the default plate lies within the
    outline of the blank, and the features of different screws, pockets and
    LEDs are apart from each other in XY: no cut runs into another. *)
Theorem cuts_inside_blank_and_apart :
  Forall (Forall (fun c => bbox_rel inside_xy c (base_box defaults)))
    (cut_groups defaults)
  /\ ForallOrdPairs
       (fun g1 g2 => Forall (fun a => Forall (fun b => bbox_rel apart_xy a b) g2) g1)
       (cut_groups defaults).
Proof.
  split; vm_compute; repeat constructor.
Qed.

Definition bbox_check (P : extent -> bool) (s : shape) : Prop :=
  match bbox s with Some e => P e = true | None => False end.

(** With the default parameters, the screw and LED through-cylinders start
    below the back face and end above the front face (they open on both
    faces); each countersink spans from [FACEPLATE_THICKNESS -
    SCREW_COUNTERSINK_DEPTH] up to the front face; each LED recess starts
    [LED_COUNTERSINK_DEPTH] below the front face and opens on it; each pocket
    opens on the back face and stops short of the front face. *)
Theorem holes_depths :
  let d := defaults in
  let T := FACEPLATE_THICKNESS d in
  Forall (fun pos =>
      bbox_check (fun e => (zmin e <? 0.0) && (T <? zmax e)) (screw_hole d pos)
      /\ bbox_check (fun e => (zmin e =? T - SCREW_COUNTERSINK_DEPTH d)
                              && (zmax e =? T)) (countersink d pos))
    (screw_positions d)
  /\ Forall (fun pos =>
      bbox_check (fun e => (zmin e <? 0.0) && (T <? zmax e)) (led_hole d pos)
      /\ bbox_check (fun e => (zmin e =? T - LED_COUNTERSINK_DEPTH d)
                              && (T <? zmax e)) (led_recess d pos)
      /\ bbox_check (fun e => (zmin e =? 0.0) && (zmax e <? T)) (pocket_box d pos))
    (bilresa_positions d).
Proof.
  intros d T. split; vm_compute; repeat constructor.
Qed.

(** With the default parameters, each reference BILRESA plate box lies inside
    the pocket box at its position, with its top face on the pocket's
    ceiling (the thin front wall). *)
Theorem reference_plate_in_pocket :
  Forall (fun pos =>
      bbox_rel inside (plate_box defaults pos) (pocket_box defaults pos)
      /\ bbox_rel (fun a b => zmax a =? zmax b)
           (plate_box defaults pos) (pocket_box defaults pos))
    (bilresa_positions defaults).
Proof.
  vm_compute; repeat constructor.
Qed.

(** With the default parameters, every part of every cradle lies within the
    outline of the blank, the cradles of different pockets are apart from
    each other in XY, and no cradle part overlaps a screw hole, countersink,
    LED hole or LED recess in XY. *)
Theorem cradles_placement :
  let d := defaults in
  let cradles := map (fun pos => cradle_parts d (vx pos)) (bilresa_positions d) in
  let holes := concat (map (fun pos => [screw_hole d pos; countersink d pos])
                           (screw_positions d)
                       ++ map (fun pos => [led_hole d pos; led_recess d pos])
                              (bilresa_positions d)) in
  Forall (Forall (fun c => bbox_rel inside_xy c (base_box d))) cradles
  /\ ForallOrdPairs
       (fun g1 g2 => Forall (fun a => Forall (fun b => bbox_rel apart_xy a b) g2) g1)
       cradles
  /\ Forall (Forall (fun c => Forall (fun h => bbox_rel apart_xy c h) holes)) cradles.
Proof.
  intros d cradles holes. split; [|split]; vm_compute; repeat constructor.
Qed.



